(** * Sentinel SRE agent: a shallow embedding of the Python sources

  The development follows the layout of the repository:
  - [rca_brain]      (modules/rca_brain.py)    the Decision Policy,
  - [train_brain]    (modules/train_brain.py)  the Calibration Job,
  - [sentinel_agent] (agents/sentinel_agent.py) the expert tool,
  - [ops_server]     (servers/ops_server.py)   the Log/Action Gateway,
  - [api_server]     (api_server.py)           the Request Facade.

  Python code runs in a state-and-exception monad [M] over a [World]
  that holds everything the process can observe or change: the files on
  disk, the in-memory sessions, the console, and the number of requests
  already sent to the two remote collaborators (language model, container
  daemon).  The collaborators themselves are oracles gathered in the
  class [Externals]; every statement below is quantified over them. *)

From Stdlib Require Import String Ascii List ZArith Lia.
From stdpp Require Import base option list gmap strings.

Open Scope string_scope.

(** ** Python values, exceptions and effects *)

Module Py.

(** Classes of the exceptions that occur in the program.  All of them
    derive from Python's [Exception], which is what every handler of the
    sources catches. *)
Inductive exn_class :=
| NotFound              (* docker.errors.NotFound *)
| APIError              (* any other docker.errors.DockerException *)
| UnicodeDecodeError
| AlreadyExistsError    (* session service: duplicate session *)
| ValueError
| FileNotFoundError
| JSONDecodeError
| LMError               (* failure of the underlying model call *)
| HTTPException (status_code : Z).

Record exn := Exn { class : exn_class; str : string }.

Inductive outcome (A : Type) :=
| Ok (a : A)
| Raise (e : exn).
Arguments Ok {A} a.
Arguments Raise {A} e.

(** Python truthiness of a [str]. *)
Definition truthy (s : string) : bool :=
  match s with EmptyString => false | String _ _ => true end.

(** [a or b] on strings. *)
Definition or_else (a b : string) : string := if truthy a then a else b.

Definition nl : string := String (ascii_of_nat 10) EmptyString.

End Py.
Export Py.

(** ** Data model *)

(** A DSPy prediction for the [RootCauseAnalysis] signature: its four
  output fields, all of them free text as far as the code is concerned. *)
Record Prediction := mkPrediction {
reasoning : string;
root_cause : string;
severity : string;
suggested_action : string }.

(** A [dspy.Example] with inputs [container_name] and [logs]; the four
  remaining fields are the labels. *)
Record Example := mkExample {
container_name : string;
logs : string;
labels : Prediction }.

(** What a path on disk may hold: a saved program state (its
  demonstrations), or something [load] cannot parse. *)
Inductive Document :=
| Compiled (demos : list Example)
| Unreadable (raw : string).

(** google.genai content, as far as the facade looks at it. *)
Record Part := mkPart { text : option string }.
Record Content := mkContent { role : string; parts : option (list Part) }.
Record Event := mkEvent { author : string; content : option Content }.

(** A container as the docker client reports it. *)
Record Container := mkContainer {
name : string;
short_id : string;
status : string }.

(** What the orchestrating model does with one user message: it emits
  events and calls tools, each next step chosen from the results of the
  tools called so far, until it has no further tool call to make. *)
Inductive Plan :=
| Done
| Say (c : option Content) (k : Plan)
| CallListContainers (k : string -> Plan)
| CallGetLogs (container_name : string) (tail : option Z) (k : string -> Plan)
| CallRestart (container_name : string) (k : string -> Plan)
| CallExpert (container_name logs : string) (k : gmap string string -> Plan).

(** Sessions are keyed by (app name, user id, session id). *)
Definition session_key : Type := string * string * string.

Record World := mkWorld {
lm_calls : nat;
docker_calls : nat;
files : gmap string Document;
sessions : gmap session_key (list Event);
stdout : list string }.

Definition set_lm_calls (n : nat) (w : World) : World :=
mkWorld n (docker_calls w) (files w) (sessions w) (stdout w).
Definition set_docker_calls (n : nat) (w : World) : World :=
mkWorld (lm_calls w) n (files w) (sessions w) (stdout w).
Definition set_files (f : gmap string Document) (w : World) : World :=
mkWorld (lm_calls w) (docker_calls w) f (sessions w) (stdout w).
Definition set_sessions (s : gmap session_key (list Event)) (w : World) : World :=
mkWorld (lm_calls w) (docker_calls w) (files w) s (stdout w).
Definition set_stdout (o : list string) (w : World) : World :=
mkWorld (lm_calls w) (docker_calls w) (files w) (sessions w) o.

(** ** The monad of Python computations *)

Definition M (A : Type) : Type := World -> outcome A * World.

#[global] Instance M_ret : MRet M := fun A a w => (Ok a, w).
#[global] Instance M_bind : MBind M := fun A B f m w =>
match m w with
| (Ok a, w') => f a w'
| (Raise e, w') => (Raise e, w')
end.

Definition raise {A} (e : exn) : M A := fun w => (Raise e, w).

(** [try: body  except Exception as e: handler e] *)
Definition try_except {A} (body : M A) (handler : exn -> M A) : M A :=
fun w =>
  match body w with
  | (Ok a, w') => (Ok a, w')
  | (Raise e, w') => handler e w'
  end.

Definition print (line : string) : M unit :=
fun w => (Ok tt, set_stdout (stdout w ++ [line]) w).

(** ** External collaborators *)

(** The language model behind [dspy.ChainOfThought]: given the number of
  requests already served (calls are not deterministic), the steering
  demonstrations and the two inputs, it answers with a prediction or
  fails. *)
Definition LM : Type :=
nat -> list Example -> string -> string -> outcome Prediction.

(** The orchestrating model of the [LlmAgent] is the field [gemini] below:
  from the session's history and the new message, its plan for the turn. *)

(** The docker client; [None] for the module-level [client] when
  [docker.from_env()] failed at import. *)
Record DockerClient := mkDockerClient {
containers_list : nat -> outcome (list Container);
containers_get : nat -> string -> outcome Container;
container_logs : nat -> Container -> Z -> outcome (list Byte.byte);
container_restart : nat -> Container -> outcome unit }.

Class Externals := mkExternals {
lm : LM;
client : option DockerClient;
decode_utf8 : list Byte.byte -> outcome string;
gemini : list Event -> Content -> Plan }.

(** ** modules/rca_brain.py *)

Module rca_brain.
Section defs.
Context `{Externals}.

(** [SREBrain]: the state of [self.prog], a chain-of-thought predictor,
    is its list of demonstrations. *)
Record SREBrain := mkSREBrain { demos : list Example }.

(** [SREBrain.__init__] *)
Definition init : SREBrain := mkSREBrain [].

(** [self.prog(container_name=..., logs=...)]: one request to the model. *)
Definition prog (self : SREBrain) (container_name logs : string) : M Prediction :=
  fun w => (lm (lm_calls w) (demos self) container_name logs,
            set_lm_calls (S (lm_calls w)) w).

Definition forward (self : SREBrain) (container_name logs : string) : M Prediction :=
  prog self container_name logs.

(** [os.path.exists] *)
Definition path_exists (filepath : string) : M bool :=
  fun w => (Ok (bool_decide (is_Some (files w !! filepath))), w).

(** [self.load(filepath)]: replaces the demonstrations by the saved ones. *)
Definition load (self : SREBrain) (filepath : string) : M SREBrain :=
  fun w =>
    match files w !! filepath with
    | Some (Compiled d) => (Ok (mkSREBrain d), w)
    | Some (Unreadable _) => (Raise (Exn JSONDecodeError "Expecting value"), w)
    | None => (Raise (Exn FileNotFoundError ("No such file: " +:+ filepath)), w)
    end.

(** [self.save(filepath)]: overwrites the file. *)
Definition save (self : SREBrain) (filepath : string) : M unit :=
  fun w => (Ok tt, set_files (<[filepath := Compiled (demos self)]> (files w)) w).

Definition load_production_weights (self : SREBrain) (filepath : string) : M SREBrain :=
  ex ← path_exists filepath;
  if ex : bool then
    self' ← load self filepath;
    _ ← print ("✅ Loaded optimized brain from " +:+ filepath);
    mret self'
  else
    _ ← print ("⚠️  No compiled brain found at " +:+ filepath
                +:+ " - running in zero-shot mode");
    mret self.

End defs.
End rca_brain.

(** ** agents/sentinel_agent.py *)

Module sentinel_agent.
Section defs.
Context `{Externals}.
Import rca_brain.

(** The module-level [brain_instance]: built and, since [SREBrain] has
    the attribute, loaded from "modules/brain_compiled.json". *)
Definition make_brain_instance : M SREBrain :=
  load_production_weights init "modules/brain_compiled.json".

Definition consult_sre_expert (brain_instance : SREBrain)
    (container_name logs : string) : M (gmap string string) :=
  _ ← print (nl +:+ "🧠 [Brain] Analyzing logs for " +:+ container_name +:+ "...");
  prediction ← forward brain_instance container_name logs;
  mret (<["analysis" := reasoning prediction]>
       (<["root_cause" := root_cause prediction]>
       (<["severity" := severity prediction]>
       (<["recommended_action" := suggested_action prediction]> ∅)))).

(** [LlmAgent(model=..., name="Sentinel_Prime", ..., tools=[ops_tools,
    consult_sre_expert])]: the expert tool closes over the brain instance. *)
Record LlmAgent := mkLlmAgent { agent_name : string; brain : SREBrain }.

Definition create_sentinel (brain_instance : SREBrain) : LlmAgent :=
  mkLlmAgent "Sentinel_Prime" brain_instance.

End defs.
End sentinel_agent.

(** ** modules/train_brain.py *)

Module train_brain.
Section defs.
Context `{Externals}.
Import rca_brain.

Definition trainset : list Example :=
  [ mkExample "production-db"
      "FATAL: Password authentication failed for user 'admin'. Connection closed."
      (mkPrediction
         "The logs show a clear authentication failure. This is likely a configuration issue in the client, not the DB itself."
         "Auth Failure" "CRITICAL" "escalate");
    mkExample "frontend-ui"
      "INFO: Rendered page in 20ms. INFO: Cache hit."
      (mkPrediction "All logs are INFO level. No errors detected."
         "None" "LOW" "none");
    mkExample "worker-node"
      "Error: Java heap space. java.lang.OutOfMemoryError. Terminating process."
      (mkPrediction
         "The application ran out of memory and crashed. It needs a restart to recover temporarily."
         "OOMKilled" "HIGH" "restart_service") ].

Definition validate_answer (example : Example) (prediction : Prediction)
    (trace : option (list Prediction)) : bool :=
  String.eqb (severity (labels example)) (severity prediction) &&
  String.eqb (suggested_action (labels example)) (suggested_action prediction).

(** [BootstrapFewShot(metric=..., max_bootstrapped_demos=...)] *)
Record BootstrapFewShot := mkBootstrapFewShot {
  metric : Example -> Prediction -> option (list Prediction) -> bool;
  max_bootstrapped_demos : nat }.

(** Modelled from the spec: the optimiser [BootstrapFewShot.compile] is
    the DSPy library's, not this repository's.  Following section 4.3:
    for each candidate demonstration, in order, a prediction is generated
    with the current policy; it is kept when the metric accepts it against
    the label, until the cap on kept demonstrations is reached.  A kept
    demonstration is the candidate's inputs with the predicted outputs. *)
Fixpoint bootstrap (t : BootstrapFewShot) (student : SREBrain)
    (kept candidates : list Example) : M (list Example) :=
  match candidates with
  | [] => mret kept
  | example :: rest =>
      if decide (max_bootstrapped_demos t <= length kept)%nat then mret kept
      else
        prediction ← forward student (container_name example) (logs example);
        if metric t example prediction None
        then bootstrap t student
               (kept ++ [mkExample (container_name example) (logs example) prediction])
               rest
        else bootstrap t student kept rest
  end.

(** Modelled from the spec: [teleprompter.compile(student, trainset=...)]
    returns the student steered by the retained demonstrations. *)
Definition teleprompter_compile (t : BootstrapFewShot) (student : SREBrain)
    (trainset : list Example) : M SREBrain :=
  kept ← bootstrap t student [] trainset;
  mret (mkSREBrain kept).

Definition save_path : string := "modules/brain_compiled.json".

Definition compile : M unit :=
  _ ← print "🧠 Training SRE Brain...";
  let teleprompter := mkBootstrapFewShot validate_answer 2 in
  let student := init in
  compiled_brain ← teleprompter_compile teleprompter student trainset;
  _ ← save compiled_brain save_path;
  print ("✅ Brain compiled and saved to " +:+ save_path).

End defs.
End train_brain.

(** ** servers/ops_server.py *)

Module ops_server.
Section defs.
Context `{Externals}.

(** One request to the container daemon. *)
Definition daemon {A} (call : nat -> outcome A) : M A :=
  fun w => (call (docker_calls w), set_docker_calls (S (docker_calls w)) w).

(** A pure step that may raise. *)
Definition eval {A} (o : outcome A) : M A := fun w => (o, w).

Definition describe (c : Container) : string :=
  "- " +:+ name c +:+ " (ID: " +:+ short_id c +:+ "): " +:+ status c +:+ nl.

Definition list_active_containers : M string :=
  match client with
  | None => mret "Error: Docker unavailable."
  | Some client =>
      try_except
        (containers ← daemon (containers_list client);
         match containers with
         | [] => mret "No active containers found."
         | _ :: _ =>
             mret (fold_left (fun report c => report +:+ describe c)
                     containers ("ACTIVE CONTAINERS:" +:+ nl))
         end)
        (fun e => mret ("Docker Error: " +:+ str e))
  end.

Definition default_tail : Z := 50.

Definition get_container_logs (container_name : string) (tail : Z) : M string :=
  match client with
  | None => mret "Error: Docker unavailable."
  | Some client =>
      try_except
        (container ← daemon (fun n => containers_get client n container_name);
         raw ← daemon (fun n => container_logs client n container tail);
         logs ← eval (decode_utf8 raw);
         mret (or_else logs "Logs are empty."))
        (fun e =>
           match class e with
           | NotFound => mret ("Error: Container '" +:+ container_name +:+ "' not found.")
           | _ => mret ("System Error: " +:+ str e)
           end)
  end.

Definition restart_service (container_name : string) : M string :=
  match client with
  | None => mret "Error: Docker unavailable."
  | Some client =>
      try_except
        (container ← daemon (fun n => containers_get client n container_name);
         _ ← daemon (fun n => container_restart client n container);
         mret ("✅ Service '" +:+ container_name +:+ "' restarted successfully."))
        (fun e => mret ("Restart Failed: " +:+ str e))
  end.

End defs.
End ops_server.

(** ** api_server.py *)

Module api_server.
Section defs.
Context `{Externals}.
Import rca_brain sentinel_agent ops_server.

Record QueryRequest := mkQueryRequest {
  user_id : string;
  session_id : string;
  query : string }.

Definition default_user_id : string := "api_user_01".
Definition default_session_id : string := "session_001".

Record Runner := mkRunner { agent : LlmAgent; app_name : string }.

(** Modelled from the spec: [InMemorySessionService.create_session] is the
    orchestration library's.  A session is created empty under its key; a
    key that is already taken is refused with an exception, which is what
    the facade's handler ("Session exists, no problem") relies on. *)
Definition create_session (session_id user_id app_name : string) : M unit :=
  fun w =>
    match sessions w !! (app_name, user_id, session_id) with
    | Some _ =>
        (Raise (Exn AlreadyExistsError ("Session already exists: " +:+ session_id)), w)
    | None =>
        (Ok tt, set_sessions (<[(app_name, user_id, session_id) := []]> (sessions w)) w)
    end.

Definition get_session (key : session_key) : M (list Event) :=
  fun w =>
    match sessions w !! key with
    | Some history => (Ok history, w)
    | None => (Raise (Exn ValueError ("Session not found: " +:+ key.2)), w)
    end.

Definition append_event (key : session_key) (ev : Event) : M unit :=
  fun w =>
    (Ok tt, set_sessions (alter (fun history => (history ++ [ev])%list) key (sessions w)) w).

(** Events that carry a function call or a function response: their parts
    have no text. *)
Definition tool_call_event (a : LlmAgent) : Event :=
  mkEvent (agent_name a) (Some (mkContent "model" (Some [mkPart None]))).
Definition tool_response_event (a : LlmAgent) : Event :=
  mkEvent (agent_name a) (Some (mkContent "user" (Some [mkPart None]))).

Definition yield (key : session_key) (ev : Event) (rest : M (list Event)) : M (list Event) :=
  _ ← append_event key ev;
  evs ← rest;
  mret (ev :: evs).

(** Modelled from the spec: the orchestration loop of the library's
    [Runner] (section 4.4).  Each step of the model's plan is carried out in
    turn; a tool call is blocking, its result feeds the next step, and an
    exception raised by a tool leaves the loop: the library has no handler
    of its own and the sources install none. *)
Fixpoint run_plan (a : LlmAgent) (key : session_key) (p : Plan) : M (list Event) :=
  match p with
  | Done => mret []
  | Say c k => yield key (mkEvent (agent_name a) c) (run_plan a key k)
  | CallListContainers k =>
      yield key (tool_call_event a)
        (r ← list_active_containers;
         yield key (tool_response_event a) (run_plan a key (k r)))
  | CallGetLogs container_name tail k =>
      yield key (tool_call_event a)
        (r ← get_container_logs container_name (default default_tail tail);
         yield key (tool_response_event a) (run_plan a key (k r)))
  | CallRestart container_name k =>
      yield key (tool_call_event a)
        (r ← restart_service container_name;
         yield key (tool_response_event a) (run_plan a key (k r)))
  | CallExpert container_name logs k =>
      yield key (tool_call_event a)
        (r ← consult_sre_expert (brain a) container_name logs;
         yield key (tool_response_event a) (run_plan a key (k r)))
  end.

(** Modelled from the spec: [runner.run_async(session_id=..., user_id=...,
    new_message=...)], the events of one turn on an existing session. *)
Definition run_async (runner : Runner) (session_id user_id : string)
    (new_message : Content) : M (list Event) :=
  let key := (app_name runner, user_id, session_id) in
  history ← get_session key;
  _ ← append_event key (mkEvent "user" (Some new_message));
  run_plan (agent runner) key (gemini history new_message).

(** The inner loop [for part in event.content.parts]. *)
Definition add_parts (final_response : string) (ps : list Part) : string :=
  fold_left
    (fun acc part =>
       match text part with
       | Some t => if truthy t then acc +:+ t else acc
       | None => acc
       end)
    ps final_response.

(** The loop [async for event in runner.run_async(...)]. *)
Definition accumulate (events : list Event) : string :=
  fold_left
    (fun acc event =>
       match content event with
       | Some c =>
           match parts c with
           | Some ((_ :: _) as ps) => add_parts acc ps
           | _ => acc
           end
       | None => acc
       end)
    events "".

(** [analyze_incident], after [startup_event] has set [agent_instance] and
    the session service. *)
Definition analyze_incident (agent_instance : LlmAgent) (request : QueryRequest)
    : M (gmap string string) :=
  try_except
    (_ ← try_except
           (create_session (session_id request) (user_id request) "Sentinel_API")
           (fun _ => mret tt);
     let runner := mkRunner agent_instance "Sentinel_API" in
     let user_msg := mkContent "user" (Some [mkPart (Some (query request))]) in
     events ← run_async runner (session_id request) (user_id request) user_msg;
     let final_response := accumulate events in
     mret (<["status" := "success"]>
          (<["session_id" := session_id request]>
          (<["response" := final_response]> ∅))))
    (fun e => raise (Exn (HTTPException 500) (str e))).

End defs.
End api_server.

(** ** Vocabulary of the specification *)

(** The enumerated labels of a Decision (specification, section 3). *)
Definition severity_labels : list string := ["LOW"; "MEDIUM"; "HIGH"; "CRITICAL"].
Definition action_labels : list string := ["restart_service"; "escalate"; "ignore"; "none"].

Definition well_formed (d : Prediction) : Prop :=
  severity d ∈ severity_labels ∧ suggested_action d ∈ action_labels.

(** The text fragments of a turn, in emission order (specification,
    section 4.5): the text of every part of every event that has one. *)
Definition text_fragments (events : list Event) : list string :=
  flat_map
    (fun event =>
       match content event with
       | Some c => omap text (default [] (parts c))
       | None => []
       end)
    events.

(** The world in which the expert tool sends its request to the model. *)
Definition announced (c : string) (w : World) : World :=
  set_stdout (stdout w ++ [nl +:+ "🧠 [Brain] Analyzing logs for " +:+ c +:+ "..."]) w.

(** The dictionary with the four keys of the expert tool's answer. *)
Definition expert_dict (p : Prediction) : gmap string string :=
  <["analysis" := reasoning p]>
  (<["root_cause" := root_cause p]>
  (<["severity" := severity p]>
  (<["recommended_action" := suggested_action p]> ∅))).

(** The line printed when no compiled brain is found. *)
Definition zero_shot_notice (filepath : string) : string :=
  "⚠️  No compiled brain found at " +:+ filepath +:+ " - running in zero-shot mode".

(** A demonstration accepted by the Calibration Job: the inputs of one of
    the candidates, with outputs that the metric accepted against that
    candidate's labels. *)
Definition accepted_from (metric : Example -> Prediction -> option (list Prediction) -> bool)
    (candidates : list Example) (d : Example) : Prop :=
  exists example, example ∈ candidates
    /\ container_name d = container_name example
    /\ logs d = logs example
    /\ metric example (labels d) None = true.

(** The first step of [analyze_incident]: the attempt to create the
    session, with its handler. *)
Definition session_step (request : api_server.QueryRequest) : M unit :=
  try_except
    (api_server.create_session (api_server.session_id request)
       (api_server.user_id request) "Sentinel_API")
    (fun _ => mret tt).

(** The message [analyze_incident] feeds into the orchestrator. *)
Definition user_message (request : api_server.QueryRequest) : Content :=
  mkContent "user" (Some [mkPart (Some (api_server.query request))]).

(** The turn that [analyze_incident] runs once the session step is over. *)
Definition turn `{Externals} (agent_instance : sentinel_agent.LlmAgent)
    (request : api_server.QueryRequest) : M (list Event) :=
  api_server.run_async (api_server.mkRunner agent_instance "Sentinel_API")
    (api_server.session_id request) (api_server.user_id request)
    (user_message request).

(** The dictionary of a successful answer of the facade. *)
Definition success_dict (request : api_server.QueryRequest) (final : string)
    : gmap string string :=
  <["status" := "success"]>
  (<["session_id" := api_server.session_id request]>
  (<["response" := final]> ∅)).

(** ** A concrete deployment, for running the definitions *)

Module scenario.

Definition oom_prediction : Prediction :=
  mkPrediction "The JVM ran out of heap and the process was terminated."
    "OOMKilled" "HIGH" "restart_service".

Definition rogue_prediction : Prediction :=
  mkPrediction "Something looks wrong." "Unknown" "SEV1" "reboot".

Definition chaos_monkey : Container := mkContainer "chaos-monkey" "a1b2c3d4e5" "running".

Definition docker : DockerClient :=
  {| containers_list := fun _ => Ok [chaos_monkey];
     containers_get := fun _ id =>
       if String.eqb id "chaos-monkey" then Ok chaos_monkey
       else Raise (Exn NotFound ("404 Client Error: No such container: " +:+ id));
     container_logs := fun _ _ _ => Ok [];
     container_restart := fun _ _ => Ok tt |}.

(** A decoder good enough for ASCII logs. *)
Definition ascii_decode (raw : list Byte.byte) : outcome string :=
  Ok (string_of_list_byte raw).

(** Fetch the logs, consult the expert, report its recommendation. *)
Definition plan : Plan :=
  CallGetLogs "chaos-monkey" None (fun logs =>
  CallExpert "chaos-monkey" logs (fun d =>
  Say (Some (mkContent "model"
         (Some [mkPart (Some "Recommended action: ");
                mkPart (d !! "recommended_action")])))
  Done)).

Definition externals (model : LM) : Externals :=
  {| lm := model; client := Some docker; decode_utf8 := ascii_decode;
     gemini := fun _ _ => plan |}.

(** A model that answers within the enumerations. *)
Definition healthy : Externals := externals (fun _ _ _ _ => Ok oom_prediction).

(** A model that answers outside of them. *)
Definition rogue : Externals := externals (fun _ _ _ _ => Ok rogue_prediction).

(** A model whose first request fails and whose later ones succeed. *)
Definition overloaded : exn := Exn LMError "503 The model is overloaded.".
Definition flaky : Externals :=
  externals (fun n _ _ _ => match n with O => Raise overloaded | S _ => Ok oom_prediction end).

(** A model that answers every training input with its label. *)
Definition by_the_book : Externals :=
  externals (fun _ _ workload _ =>
    match find (fun example => String.eqb (container_name example) workload)
            train_brain.trainset with
    | Some example => Ok (labels example)
    | None => Ok oom_prediction
    end).

(** A backend that finds the containers and then fails: the logs of
    "chaos-monkey" are no UTF-8, those of "production-db" cannot be read,
    and no container can be restarted. *)
Definition database : Container := mkContainer "production-db" "f6e5d4c3b2" "paused".

Definition broken_docker : DockerClient :=
  {| containers_list := fun _ =>
       Raise (Exn APIError "500 Server Error: the daemon is shutting down");
     containers_get := fun _ id =>
       if String.eqb id "chaos-monkey" then Ok chaos_monkey
       else if String.eqb id "production-db" then Ok database
       else Raise (Exn NotFound ("404 Client Error: No such container: " +:+ id));
     container_logs := fun _ container _ =>
       if String.eqb (name container) "chaos-monkey" then Ok [Byte.xff]
       else Raise (Exn APIError "500 Server Error: the log driver is unavailable");
     container_restart := fun _ _ =>
       Raise (Exn APIError "409 Client Error: the container is paused") |}.

(** A decoder that refuses every byte outside ASCII. *)
Definition strict_decode (raw : list Byte.byte) : outcome string :=
  if forallb (fun b => (Byte.to_N b <? 128)%N) raw then Ok (string_of_list_byte raw)
  else Raise (Exn UnicodeDecodeError "'utf-8' codec can't decode byte 0xff").

Definition broken : Externals :=
  {| lm := fun _ _ _ _ => Ok oom_prediction; client := Some broken_docker;
     decode_utf8 := strict_decode; gemini := fun _ _ => plan |}.

Definition world0 : World := mkWorld 0 0 ∅ ∅ [].

Definition request : api_server.QueryRequest :=
  api_server.mkQueryRequest "kunj369" "incident_123"
    "Check logs for chaos-monkey and fix any critical errors.".


End scenario.

(** ** Entry points: [startup_event] of api_server.py and [main] of
    agents/sentinel_agent.py *)

Module entry_points.
Section defs.
Context `{Externals}.
Import rca_brain sentinel_agent api_server.

(** [InMemorySessionService()]: a new service holds no session. *)
Definition new_session_service : M unit :=
  fun w => (Ok tt, set_sessions ∅ w).

(** [startup_event]: sets the globals [agent_instance] (returned here) and
    [session_service]. *)
Definition startup_event (brain_instance : SREBrain) : M LlmAgent :=
  _ ← print (nl +:+ "🚀 Booting up Sentinel Agent...");
  let agent_instance := create_sentinel brain_instance in
  _ ← new_session_service;
  _ ← print ("✅ Sentinel is online and ready." +:+ nl);
  mret agent_instance.

(** [str.lower], on the ASCII letters.  The bytes of other characters are
    left alone; Python's lowering of a non-ASCII character never yields one
    of the letters of "exit" or "quit" alone, so the membership test of
    [main] is decided alike. *)
Definition lower_ascii (a : ascii) : ascii :=
  let n := nat_of_ascii a in
  if (65 <=? n)%nat && (n <=? 90)%nat then ascii_of_nat (n + 32) else a.

Fixpoint lower (s : string) : string :=
  match s with
  | EmptyString => EmptyString
  | String a rest => String (lower_ascii a) (lower rest)
  end.

(** The prompt that [input] writes before it reads a line. *)
Definition input_prompt : string := nl +:+ "User: ".

(** What reaches [input] while [main] waits at its prompt: a line typed by
    the user, or the interrupt key, on which the read of the line raises
    [KeyboardInterrupt].  This exception is no [Exception]; in this world
    it arises at the prompt only, a turn once started runs to its end. *)
Inductive terminal_input :=
| Line (text : string)
| KeyboardInterrupt.

(** How far [main] got on what the terminal delivered so far: it left the
    loop, or it has written its prompt and waits for the next line. *)
Inductive repl_state := Exited | AwaitingInput.

(** The body of the [try] of one iteration, once the line is read and is
    no exit command. *)
Definition respond (runner : Runner) (session_id user_id user_input : string) : M unit :=
  let user_msg := mkContent "user" (Some [mkPart (Some user_input)]) in
  events ← run_async runner session_id user_id user_msg;
  let final_text := accumulate events in
  print ("Sentinel: " +:+ final_text).

(** The [while True] loop of [main] on what the terminal delivers.  The
    loop is left in two ways: by [break] on an exit command, and by the
    handler [except KeyboardInterrupt: break].  Any [Exception] of the
    iteration goes to the second handler, which prints it and lets the loop
    go on; its traceback goes to the error stream, which the world leaves
    out. *)
Fixpoint repl (runner : Runner) (session_id user_id : string)
    (inputs : list terminal_input) : M repl_state :=
  match inputs with
  | [] => _ ← print input_prompt; mret AwaitingInput
  | KeyboardInterrupt :: _ =>
      _ ← print input_prompt;
      mret Exited
  | Line user_input :: rest =>
      _ ← print input_prompt;
      if bool_decide (lower user_input ∈ ["exit"; "quit"]) then mret Exited
      else
        _ ← try_except (respond runner session_id user_id user_input)
              (fun e => print ("❌ Error: " +:+ str e));
        repl runner session_id user_id rest
  end.

Definition main (brain_instance : SREBrain) (inputs : list terminal_input)
    : M repl_state :=
  _ ← print "⏳ Initializing Sentinel...";
  let agent := create_sentinel brain_instance in
  _ ← new_session_service;
  let session_id := "live-session-01" in
  let user_id := "admin_user" in
  let app_name := "Sentinel_App" in
  _ ← create_session session_id user_id app_name;
  let runner := mkRunner agent app_name in
  _ ← print "✅ Sentinel is Online. (Type 'exit' to quit)";
  repl runner session_id user_id inputs.

End defs.
End entry_points.

(** ** Vocabulary of the further properties *)

(** A line that makes [main] leave its loop. *)
Definition exit_command (line : string) : Prop :=
  entry_points.lower line ∈ ["exit"; "quit"].

(** What makes [main] leave its loop: an exit command, or the interrupt. *)
Definition leaves_loop (input : entry_points.terminal_input) : Prop :=
  match input with
  | entry_points.Line text => exit_command text
  | entry_points.KeyboardInterrupt => True
  end.

(** The report of [list_active_containers] for the listed containers. *)
Definition containers_report (containers : list Container) : string :=
  "ACTIVE CONTAINERS:" +:+ nl +:+ String.concat "" (map ops_server.describe containers).

(** * Properties *)

(** ** Running the monad *)

Lemma bind_ok {A B} (m : M A) (f : A -> M B) w a w' :
  m w = (Ok a, w') -> (m ≫= f) w = f a w'.
Proof. intros Hm. unfold mbind, M_bind. by rewrite Hm. Qed.

Lemma bind_raise {A B} (m : M A) (f : A -> M B) w e w' :
  m w = (Raise e, w') -> (m ≫= f) w = (Raise e, w').
Proof. intros Hm. unfold mbind, M_bind. by rewrite Hm. Qed.

(** ** The Decision Policy and the expert tool *)

Section brain_facts.
Context `{Externals}.
Import rca_brain sentinel_agent.

Lemma forward_run self c l w :
  forward self c l w = (lm (lm_calls w) (demos self) c l, set_lm_calls (S (lm_calls w)) w).
Proof. reflexivity. Qed.

Lemma consult_sre_expert_ok brain c l w p :
  lm (lm_calls w) (demos brain) c l = Ok p ->
  consult_sre_expert brain c l w
  = (Ok (expert_dict p), set_lm_calls (S (lm_calls w)) (announced c w)).
Proof.
  intros Hlm. unfold consult_sre_expert.
  erewrite bind_ok by reflexivity.
  erewrite bind_ok; [reflexivity|].
  rewrite forward_run. simpl. by rewrite Hlm.
Qed.

Lemma consult_sre_expert_raise brain c l w e :
  lm (lm_calls w) (demos brain) c l = Raise e ->
  consult_sre_expert brain c l w
  = (Raise e, set_lm_calls (S (lm_calls w)) (announced c w)).
Proof.
  intros Hlm. unfold consult_sre_expert.
  erewrite bind_ok by reflexivity.
  erewrite bind_raise; [reflexivity|].
  rewrite forward_run. simpl. by rewrite Hlm.
Qed.

Lemma expert_dict_dom p :
  dom (expert_dict p)
  = ({["analysis"; "root_cause"; "severity"; "recommended_action"]} : gset string).
Proof. unfold expert_dict. rewrite !dom_insert_L, dom_empty_L. set_solver. Qed.

End brain_facts.

Section expert_tool.
Context `{Externals}.
Import rca_brain sentinel_agent.

(** C10: for every prediction of the brain, [consult_sre_expert] returns a
    dictionary with exactly the four keys "analysis", "root_cause",
    "severity" and "recommended_action", bound to the prediction's
    reasoning, root_cause, severity and suggested_action, unmodified. *)
Theorem consult_sre_expert_four_keys brain c l w p :
  lm (lm_calls w) (demos brain) c l = Ok p ->
  exists d, (consult_sre_expert brain c l w).1 = Ok d
    /\ dom d = ({["analysis"; "root_cause"; "severity"; "recommended_action"]} : gset string)
    /\ d !! "analysis" = Some (reasoning p)
    /\ d !! "root_cause" = Some (root_cause p)
    /\ d !! "severity" = Some (severity p)
    /\ d !! "recommended_action" = Some (suggested_action p).
Proof.
  intros Hlm. exists (expert_dict p).
  rewrite (consult_sre_expert_ok _ _ _ _ _ Hlm).
  split; [reflexivity|]. split; [apply expert_dict_dom|].
  unfold expert_dict. by simplify_map_eq.
Qed.

(** C1, as amended: a Decision whose suggested_action is outside the
    enumerated labels reaches the caller of [consult_sre_expert] with that
    action unchanged; in particular it is not turned into
    "restart_service". *)
Theorem consult_sre_expert_passes_action_through brain c l w p :
  lm (lm_calls w) (demos brain) c l = Ok p ->
  suggested_action p ∉ action_labels ->
  exists d, (consult_sre_expert brain c l w).1 = Ok d
    /\ d !! "recommended_action" = Some (suggested_action p)
    /\ d !! "recommended_action" <> Some "restart_service".
Proof.
  intros Hlm Hout. exists (expert_dict p).
  rewrite (consult_sre_expert_ok _ _ _ _ _ Hlm).
  split; [reflexivity|].
  assert (Hact : expert_dict p !! "recommended_action" = Some (suggested_action p))
    by (unfold expert_dict; by simplify_map_eq).
  split; [exact Hact|].
  rewrite Hact. intros [= Heq]. apply Hout. rewrite Heq.
  unfold action_labels. set_solver.
Qed.


End expert_tool.

Lemma consult_sre_expert_four_keys_witness :
  lm (Externals := scenario.healthy) 0 [] "worker-node" "java.lang.OutOfMemoryError"
    = Ok scenario.oom_prediction
  /\ exists d,
      (sentinel_agent.consult_sre_expert (H := scenario.healthy) rca_brain.init
         "worker-node" "java.lang.OutOfMemoryError" scenario.world0).1 = Ok d
      /\ dom d = ({["analysis"; "root_cause"; "severity"; "recommended_action"]} : gset string)
      /\ d !! "analysis" = Some (reasoning scenario.oom_prediction)
      /\ d !! "root_cause" = Some "OOMKilled"
      /\ d !! "severity" = Some "HIGH"
      /\ d !! "recommended_action" = Some "restart_service".
Proof.
  split; [reflexivity|].
  apply (consult_sre_expert_four_keys (H := scenario.healthy)). reflexivity.
Defined.

Lemma rogue_action_not_a_label : "reboot" ∉ action_labels.
Proof.
  unfold action_labels. rewrite !not_elem_of_cons. repeat split; try discriminate.
  apply not_elem_of_nil.
Qed.

Lemma consult_sre_expert_passes_action_through_witness :
  lm (Externals := scenario.rogue) 0 [] "chaos-monkey" "CRITICAL: Database Connection Refused"
    = Ok scenario.rogue_prediction
  /\ (suggested_action scenario.rogue_prediction ∉ action_labels)
  /\ exists d,
      (sentinel_agent.consult_sre_expert (H := scenario.rogue) rca_brain.init
         "chaos-monkey" "CRITICAL: Database Connection Refused" scenario.world0).1 = Ok d
      /\ d !! "recommended_action" = Some "reboot"
      /\ d !! "recommended_action" <> Some "restart_service".
Proof.
  split; [reflexivity|]. split; [exact rogue_action_not_a_label|].
  apply (consult_sre_expert_passes_action_through (H := scenario.rogue)
           rca_brain.init _ _ scenario.world0 scenario.rogue_prediction).
  - reflexivity.
  - exact rogue_action_not_a_label.
Defined.

(** C1, as stated, fails: a model answer with the action "reboot", which is
    no enumerated label, is handed on as "reboot" and not as "ignore". *)
Lemma consult_sre_expert_does_not_fail_safe :
  ~ (forall (E : Externals) brain c l w p,
       lm (lm_calls w) (rca_brain.demos brain) c l = Ok p ->
       suggested_action p ∉ action_labels ->
       exists d, (sentinel_agent.consult_sre_expert brain c l w).1 = Ok d
         /\ d !! "recommended_action" = Some "ignore"
         /\ d !! "recommended_action" <> Some "restart_service").
Proof.
  intros Hclaim.
  destruct (Hclaim scenario.rogue rca_brain.init "chaos-monkey"
              "CRITICAL: Database Connection Refused" scenario.world0
              scenario.rogue_prediction eq_refl rogue_action_not_a_label)
    as (d & Hrun & Hignore & _).
  rewrite (consult_sre_expert_ok (H := scenario.rogue) _ _ _ _
             scenario.rogue_prediction eq_refl) in Hrun.
  simpl in Hrun. injection Hrun as <-.
  unfold expert_dict in Hignore. simplify_map_eq.
Qed.




(** The three labelled examples of the training set are well-formed. *)
Lemma trainset_well_formed :
  Forall (fun example => well_formed (labels example)) train_brain.trainset.
Proof.
  unfold train_brain.trainset.
  repeat constructor; simpl; unfold severity_labels, action_labels; set_solver.
Qed.

(** ** Loading the compiled brain *)

Section weights.
Context `{Externals}.
Import rca_brain.

(** C5: when no compiled ExampleSet is on disk, loading the production
    weights raises nothing and leaves the brain and the files as they were
    (a notice is printed); a brain built without demonstrations therefore
    stays in zero-shot mode: its request to the model carries none. *)
Theorem load_production_weights_absent self filepath w :
  files w !! filepath = None ->
  exists w',
    load_production_weights self filepath w = (Ok self, w')
    /\ files w' = files w
    /\ stdout w' = (stdout w ++ [zero_shot_notice filepath])%list
    /\ (demos self = [] ->
        forall c l w'', (forward self c l w'').1 = lm (lm_calls w'') [] c l).
Proof.
  intros Habsent.
  exists (set_stdout (stdout w ++ [zero_shot_notice filepath]) w).
  split; [|split; [reflexivity|split; [reflexivity|]]].
  - unfold load_production_weights.
    erewrite bind_ok; [|unfold path_exists; rewrite Habsent; reflexivity].
    rewrite bool_decide_eq_false_2 by (intros [? ?]; discriminate).
    erewrite bind_ok by reflexivity. reflexivity.
  - intros Hzero c l w''. rewrite forward_run, Hzero. reflexivity.
Qed.

End weights.

Lemma load_production_weights_absent_witness :
  files scenario.world0 !! "modules/brain_compiled.json" = None
  /\ exists w',
      rca_brain.load_production_weights rca_brain.init "modules/brain_compiled.json"
        scenario.world0 = (Ok rca_brain.init, w')
      /\ files w' = files scenario.world0
      /\ stdout w' = [zero_shot_notice "modules/brain_compiled.json"]
      /\ (rca_brain.demos rca_brain.init = [] ->
          forall c l w'',
            (rca_brain.forward (H := scenario.healthy) rca_brain.init c l w'').1
            = lm (Externals := scenario.healthy) (lm_calls w'') [] c l).
Proof.
  split; [reflexivity|].
  apply (load_production_weights_absent (H := scenario.healthy) rca_brain.init
           "modules/brain_compiled.json" scenario.world0).
  reflexivity.
Defined.

(** ** The Calibration Job *)

Section calibration.
Context `{Externals}.
Import rca_brain train_brain.

Lemma validate_answer_spec example prediction trace :
  validate_answer example prediction trace = true
  <-> severity prediction = severity (labels example)
      /\ suggested_action prediction = suggested_action (labels example).
Proof.
  unfold validate_answer. rewrite andb_true_iff, !String.eqb_eq. intuition congruence.
Qed.

(** Bootstrapping touches neither the files nor the sessions; it never
    exceeds the cap and keeps accepted demonstrations only. *)
Lemma bootstrap_invariant t student all candidates :
  forall kept w r w',
    (forall example, example ∈ candidates -> example ∈ all) ->
    bootstrap t student kept candidates w = (r, w') ->
    files w' = files w
    /\ forall ks, r = Ok ks ->
         (length kept <= max_bootstrapped_demos t -> length ks <= max_bootstrapped_demos t)
         /\ (Forall (accepted_from (metric t) all) kept ->
             Forall (accepted_from (metric t) all) ks).
Proof.
  induction candidates as [|example rest IH]; intros kept w r w' Hsub Hrun; simpl in Hrun.
  - injection Hrun as <- <-. split; [reflexivity|]. by intros ks [= <-].
  - case_decide as Hcap.
    + injection Hrun as <- <-. split; [reflexivity|]. by intros ks [= <-].
    + unfold mbind, M_bind in Hrun. rewrite forward_run in Hrun.
      destruct (lm (lm_calls w) (demos student) (container_name example) (logs example))
        as [prediction|e] eqn:Hlm.
      * assert (Hrest : forall x, x ∈ rest -> x ∈ all)
          by (intros x Hx; apply Hsub; by right).
        destruct (metric t example prediction None) eqn:Hmetric.
        -- destruct (IH _ _ _ _ Hrest Hrun) as [Hfiles Hks].
           split; [exact Hfiles|]. intros ks Hr.
           destruct (Hks ks Hr) as [Hlen Hacc]. split.
           ++ intros _. apply Hlen. rewrite length_app. simpl. lia.
           ++ intros Hkept. apply Hacc. apply Forall_app. split; [exact Hkept|].
              constructor; [|constructor].
              exists example. split; [apply Hsub; by left|]. by simpl.
        -- exact (IH _ _ _ _ Hrest Hrun).
      * injection Hrun as <- <-. split; [reflexivity|]. intros ks Hr. discriminate.
Qed.

(** C4: the validation predicate accepts a (labelled example, prediction)
    pair exactly when severity and suggested_action both equal the label's;
    the reasoning and root_cause texts, on either side, never matter; and
    the ExampleSet that [compile] persists holds at most 2 demonstrations,
    each of them accepted by the predicate against a training example. *)
Theorem validate_answer_and_cap :
  (forall example prediction trace,
     validate_answer example prediction trace = true
     <-> severity prediction = severity (labels example)
         /\ suggested_action prediction = suggested_action (labels example))
  /\ (forall example prediction trace r rc r' rc',
        validate_answer
          (mkExample (container_name example) (logs example)
             (mkPrediction r' rc' (severity (labels example))
                (suggested_action (labels example))))
          (mkPrediction r rc (severity prediction) (suggested_action prediction)) trace
        = validate_answer example prediction trace)
  /\ (forall w,
        match compile w with
        | (Ok _, w') =>
            exists kept, files w' !! save_path = Some (Compiled kept)
              /\ length kept <= 2
              /\ Forall (accepted_from validate_answer trainset) kept
        | (Raise _, w') => files w' = files w
        end).
Proof.
  split; [exact validate_answer_spec|]. split; [reflexivity|].
  intros w. unfold compile.
  erewrite bind_ok by reflexivity.
  set (w0 := set_stdout _ w). cbv zeta.
  unfold teleprompter_compile.
  destruct (bootstrap (mkBootstrapFewShot validate_answer 2) init [] trainset w0)
    as [[kept|e] w1] eqn:Hboot.
  - destruct (bootstrap_invariant _ _ trainset _ _ _ _ _ (fun _ Hin => Hin) Hboot)
      as [Hfiles Hkept].
    destruct (Hkept kept eq_refl) as [Hlen Hacc].
    erewrite bind_ok; [|erewrite bind_ok by exact Hboot; reflexivity].
    erewrite bind_ok by reflexivity. simpl.
    exists kept. split; [by simplify_map_eq|].
    split; [apply Hlen; simpl; lia|]. apply Hacc. constructor.
  - destruct (bootstrap_invariant _ _ trainset _ _ _ _ _ (fun _ Hin => Hin) Hboot)
      as [Hfiles _].
    erewrite bind_raise; [|erewrite bind_raise by exact Hboot; reflexivity].
    exact Hfiles.
Qed.

End calibration.

(** With a model that matches all three labels the cap decides: the first
    two examples are kept.  With one that always recommends a restart only
    the third example is accepted. *)
Example compile_runs :
  files (train_brain.compile (H := scenario.by_the_book) scenario.world0).2
    !! train_brain.save_path
  = Some (Compiled (take 2 train_brain.trainset))
  /\ files (train_brain.compile (H := scenario.healthy) scenario.world0).2
       !! train_brain.save_path
     = Some (Compiled [mkExample "worker-node"
                         "Error: Java heap space. java.lang.OutOfMemoryError. Terminating process."
                         scenario.oom_prediction]).
Proof. split; vm_compute; reflexivity. Qed.

(** ** The Log/Action Gateway *)

Ltac py_unfold :=
  unfold try_except, mbind, M_bind, mret, M_ret, ops_server.daemon, ops_server.eval.

(** Case analysis on every answer of a collaborator that the goal still
    inspects. *)
Ltac py_cases :=
  repeat match goal with
    | |- context [match ?o with Ok _ => _ | Raise _ => _ end] =>
        let Ho := fresh "Hcall" in destruct o eqn:Ho; simpl
    | |- context [match ?l with [] => _ | _ :: _ => _ end] =>
        let Hl := fresh "Hlist" in destruct l eqn:Hl; simpl
    | |- context [match class ?e with _ => _ end] =>
        let Hc := fresh "Hclass" in destruct (class e) eqn:Hc; simpl
    end.

Section gateway.
Context `{Externals}.
Import ops_server.

Lemma list_active_containers_total w :
  exists s, (list_active_containers w).1 = Ok s.
Proof.
  unfold list_active_containers. destruct client as [c|]; [|by eexists].
  py_unfold. simpl. py_cases; by eexists.
Qed.

Lemma get_container_logs_total container_name tail w :
  exists s, (get_container_logs container_name tail w).1 = Ok s.
Proof.
  unfold get_container_logs. destruct client as [c|]; [|by eexists].
  py_unfold. simpl. py_cases; by eexists.
Qed.

Lemma restart_service_total container_name w :
  exists s, (restart_service container_name w).1 = Ok s.
Proof.
  unfold restart_service. destruct client as [c|]; [|by eexists].
  py_unfold. simpl. py_cases; by eexists.
Qed.

(** C3: every Gateway operation returns a string, whatever the backend
    does, and in every error condition the string describes the error: the
    backend is unreachable, the workload id is unknown, or any call on the
    way raises any other exception: listing, looking the container up,
    reading its logs, decoding them, restarting it.  The text names the
    operation that failed and carries the message of the exception; for
    the logs, an exception of class NotFound is reported as the container
    not being found. *)
Theorem gateway_errors_are_text container_name tail w :
  (exists s, (list_active_containers w).1 = Ok s)
  /\ (exists s, (get_container_logs container_name tail w).1 = Ok s)
  /\ (exists s, (restart_service container_name w).1 = Ok s)
  /\ (client = None ->
      (list_active_containers w).1 = Ok "Error: Docker unavailable."
      /\ (get_container_logs container_name tail w).1 = Ok "Error: Docker unavailable."
      /\ (restart_service container_name w).1 = Ok "Error: Docker unavailable.")
  /\ (forall c e, client = Some c ->
      containers_list c (docker_calls w) = Raise e ->
      (list_active_containers w).1 = Ok ("Docker Error: " +:+ str e))
  /\ (forall c e, client = Some c ->
      containers_get c (docker_calls w) container_name = Raise e ->
      (get_container_logs container_name tail w).1
        = Ok (match class e with
              | NotFound => "Error: Container '" +:+ container_name +:+ "' not found."
              | _ => "System Error: " +:+ str e
              end)
      /\ (restart_service container_name w).1 = Ok ("Restart Failed: " +:+ str e))
  /\ (forall c container e, client = Some c ->
      containers_get c (docker_calls w) container_name = Ok container ->
      (container_logs c (S (docker_calls w)) container tail = Raise e ->
       (get_container_logs container_name tail w).1
         = Ok (match class e with
               | NotFound => "Error: Container '" +:+ container_name +:+ "' not found."
               | _ => "System Error: " +:+ str e
               end))
      /\ (forall raw,
            container_logs c (S (docker_calls w)) container tail = Ok raw ->
            decode_utf8 raw = Raise e ->
            (get_container_logs container_name tail w).1
              = Ok (match class e with
                    | NotFound =>
                        "Error: Container '" +:+ container_name +:+ "' not found."
                    | _ => "System Error: " +:+ str e
                    end))
      /\ (container_restart c (S (docker_calls w)) container = Raise e ->
          (restart_service container_name w).1 = Ok ("Restart Failed: " +:+ str e))).
Proof.
  split; [apply list_active_containers_total|].
  split; [apply get_container_logs_total|].
  split; [apply restart_service_total|].
  unfold list_active_containers, get_container_logs, restart_service.
  split; [|split; [|split]].
  - intros ->. done.
  - intros c e -> Hlist. py_unfold. simpl. by rewrite Hlist.
  - intros c e -> Hget. py_unfold. simpl. rewrite Hget. simpl.
    split; [|reflexivity]. by destruct (class e).
  - intros c container e -> Hget. py_unfold. simpl. rewrite Hget. simpl.
    split; [|split].
    + intros Hlogs. rewrite Hlogs. simpl. by destruct (class e).
    + intros raw Hlogs Hdecode. rewrite Hlogs. simpl. rewrite Hdecode. simpl.
      by destruct (class e).
    + intros Hrestart. by rewrite Hrestart.
Qed.

End gateway.

(** An unknown container on a healthy backend; then, on a broken one,
    logs that cannot be read, logs that cannot be decoded and a restart
    that is refused. *)
Lemma gateway_errors_are_text_witness :
  containers_get scenario.docker 0 "ghost"
    = Raise (Exn NotFound "404 Client Error: No such container: ghost")
  /\ (ops_server.get_container_logs (H := scenario.healthy) "ghost" 50 scenario.world0).1
     = Ok "Error: Container 'ghost' not found."
  /\ (ops_server.restart_service (H := scenario.healthy) "ghost" scenario.world0).1
     = Ok "Restart Failed: 404 Client Error: No such container: ghost"
  /\ (ops_server.list_active_containers (H := scenario.broken) scenario.world0).1
     = Ok "Docker Error: 500 Server Error: the daemon is shutting down"
  /\ (ops_server.get_container_logs (H := scenario.broken) "production-db" 50
        scenario.world0).1
     = Ok "System Error: 500 Server Error: the log driver is unavailable"
  /\ (ops_server.get_container_logs (H := scenario.broken) "chaos-monkey" 50
        scenario.world0).1
     = Ok "System Error: 'utf-8' codec can't decode byte 0xff"
  /\ (ops_server.restart_service (H := scenario.broken) "production-db" scenario.world0).1
     = Ok "Restart Failed: 409 Client Error: the container is paused".
Proof.
  split; [reflexivity|].
  destruct (gateway_errors_are_text (H := scenario.healthy) "ghost" 50 scenario.world0)
    as (_ & _ & _ & _ & _ & Hget & _).
  destruct (Hget scenario.docker _ eq_refl eq_refl) as [Hlogs Hrestart].
  split; [exact Hlogs|]. split; [exact Hrestart|].
  destruct (gateway_errors_are_text (H := scenario.broken) "production-db" 50
              scenario.world0) as (_ & _ & _ & _ & Hlist & _ & Hdb).
  destruct (Hdb scenario.broken_docker scenario.database
              (Exn APIError "500 Server Error: the log driver is unavailable")
              eq_refl eq_refl) as (Hunread & _ & _).
  destruct (Hdb scenario.broken_docker scenario.database
              (Exn APIError "409 Client Error: the container is paused")
              eq_refl eq_refl) as (_ & _ & Hrefused).
  destruct (gateway_errors_are_text (H := scenario.broken) "chaos-monkey" 50
              scenario.world0) as (_ & _ & _ & _ & _ & _ & Hmonkey).
  destruct (Hmonkey scenario.broken_docker scenario.chaos_monkey
              (Exn UnicodeDecodeError "'utf-8' codec can't decode byte 0xff")
              eq_refl eq_refl) as (_ & Hdecode & _).
  split; [exact (Hlist scenario.broken_docker _ eq_refl eq_refl)|].
  split; [exact (Hunread eq_refl)|].
  split; [exact (Hdecode [Byte.xff] eq_refl eq_refl)|].
  exact (Hrefused eq_refl).
Defined.

(** An unreachable backend, and a healthy one. *)
Example gateway_runs :
  (ops_server.list_active_containers (H := scenario.healthy) scenario.world0).1
    = Ok ("ACTIVE CONTAINERS:" +:+ nl +:+ "- chaos-monkey (ID: a1b2c3d4e5): running" +:+ nl)
  /\ (ops_server.get_container_logs (H := scenario.healthy) "chaos-monkey" 50
        scenario.world0).1 = Ok "Logs are empty."
  /\ (ops_server.restart_service (H := scenario.healthy) "chaos-monkey" scenario.world0)
     = (Ok "✅ Service 'chaos-monkey' restarted successfully.",
        set_docker_calls 2 scenario.world0).
Proof. repeat split. Qed.

(** ** The Request Facade *)

Lemma append_empty_r (s : string) : s +:+ "" = s.
Proof.
  induction s as [|a s IH]; [reflexivity|].
  change (String a (s +:+ "") = String a s). by rewrite IH.
Qed.

Lemma append_assoc (s1 s2 s3 : string) : (s1 +:+ s2) +:+ s3 = s1 +:+ (s2 +:+ s3).
Proof.
  induction s1 as [|a s1 IH]; [reflexivity|].
  change (String a ((s1 +:+ s2) +:+ s3) = String a (s1 +:+ (s2 +:+ s3))).
  by rewrite IH.
Qed.

Lemma concat_cons (s : string) (l : list string) :
  String.concat "" (s :: l) = s +:+ String.concat "" l.
Proof. destruct l; simpl; [by rewrite append_empty_r|reflexivity]. Qed.

Lemma concat_app (l1 l2 : list string) :
  String.concat "" (l1 ++ l2) = String.concat "" l1 +:+ String.concat "" l2.
Proof.
  induction l1 as [|s l1 IH]; [reflexivity|].
  rewrite <- app_comm_cons, !concat_cons, IH. by rewrite append_assoc.
Qed.

Lemma truthy_false (s : string) : truthy s = false -> s = "".
Proof. by destruct s. Qed.

Section facade.
Context `{Externals}.
Import rca_brain sentinel_agent api_server.

Lemma add_parts_concat ps : forall acc,
  add_parts acc ps = acc +:+ String.concat "" (omap text ps).
Proof.
  unfold add_parts.
  induction ps as [|part ps IH]; intros acc; simpl.
  - by rewrite append_empty_r.
  - rewrite IH. destruct (text part) as [t|]; [|reflexivity].
    rewrite concat_cons. destruct (truthy t) eqn:Ht.
    + by rewrite append_assoc.
    + by rewrite (truthy_false _ Ht).
Qed.

Lemma accumulate_from events : forall acc,
  fold_left
    (fun acc event =>
       match content event with
       | Some c =>
           match parts c with
           | Some ((_ :: _) as ps) => add_parts acc ps
           | _ => acc
           end
       | None => acc
       end)
    events acc
  = acc +:+ String.concat "" (text_fragments events).
Proof.
  induction events as [|event events IH]; intros acc; simpl.
  - by rewrite append_empty_r.
  - rewrite IH, concat_app, <- append_assoc. f_equal.
    destruct (content event) as [c|]; simpl; [|by rewrite append_empty_r].
    destruct (parts c) as [[|part ps]|].
    + simpl. by rewrite append_empty_r.
    + exact (add_parts_concat (part :: ps) acc).
    + simpl. by rewrite append_empty_r.
Qed.

Lemma accumulate_concat events :
  accumulate events = String.concat "" (text_fragments events).
Proof. unfold accumulate. by rewrite accumulate_from. Qed.

(** The session step never raises, and leaves a session under the key. *)
Lemma session_step_run request w :
  session_step request w
  = (Ok tt,
     match sessions w !! ("Sentinel_API", user_id request, session_id request) with
     | Some _ => w
     | None =>
         set_sessions
           (<[("Sentinel_API", user_id request, session_id request) := []]> (sessions w)) w
     end).
Proof.
  unfold session_step, try_except, create_session.
  by destruct (sessions w !! _).
Qed.


Lemma analyze_incident_unfold agent_instance request w :
  analyze_incident agent_instance request w
  = match turn agent_instance request (session_step request w).2 with
    | (Ok events, w') => (Ok (success_dict request (accumulate events)), w')
    | (Raise e, w') => (Raise (Exn (HTTPException 500) (str e)), w')
    end.
Proof.
  unfold analyze_incident.
  change (try_except (create_session _ _ _) _) with (session_step request).
  unfold try_except at 1. unfold mbind, M_bind.
  rewrite session_step_run. simpl.
  change (run_async _ _ _ _) with (turn agent_instance request).
  by destruct (turn agent_instance request _) as [[events|e] w'].
Qed.

Lemma success_dict_keys request final :
  dom (success_dict request final) = ({["status"; "session_id"; "response"]} : gset string)
  /\ success_dict request final !! "status" = Some "success"
  /\ success_dict request final !! "session_id" = Some (session_id request)
  /\ success_dict request final !! "response" = Some final.
Proof.
  unfold success_dict. split; [|by simplify_map_eq].
  rewrite !dom_insert_L, dom_empty_L. set_solver.
Qed.

(** A turn that runs to the end is a request handled successfully. *)
Lemma analyze_incident_success agent_instance request w events w' :
  turn agent_instance request (session_step request w).2 = (Ok events, w') ->
  analyze_incident agent_instance request w
  = (Ok (success_dict request (String.concat "" (text_fragments events))), w').
Proof.
  intros Hturn. by rewrite analyze_incident_unfold, Hturn, accumulate_concat.
Qed.

(** C8: a request is handled successfully exactly when its turn runs to
    the end, and the value then returned carries the status "success", the
    session id and, as response, the concatenation in emission order of all
    the text fragments that the orchestrator emitted during that turn. *)
Theorem analyze_incident_response agent_instance request w d w' :
  analyze_incident agent_instance request w = (Ok d, w')
  <-> exists events,
        turn agent_instance request (session_step request w).2 = (Ok events, w')
        /\ dom d = ({["status"; "session_id"; "response"]} : gset string)
        /\ d !! "status" = Some "success"
        /\ d !! "session_id" = Some (session_id request)
        /\ d !! "response" = Some (String.concat "" (text_fragments events)).
Proof.
  split.
  - rewrite analyze_incident_unfold.
    destruct (turn agent_instance request _) as [[events|e] w1]; [|discriminate].
    intros [= <- <-]. exists events. split; [reflexivity|].
    rewrite accumulate_concat. apply success_dict_keys.
  - intros (events & Hturn & Hdom & Hstatus & Hsession & Hresponse).
    rewrite (analyze_incident_success _ _ _ _ _ Hturn). do 2 f_equal.
    destruct (success_dict_keys request (String.concat "" (text_fragments events)))
      as (Hdom' & Hstatus' & Hsession' & Hresponse').
    apply map_eq. intros key.
    destruct (decide (key ∈ ({["status"; "session_id"; "response"]} : gset string)))
      as [Hin|Hout].
    + apply elem_of_union in Hin as [Hin|Hin%elem_of_singleton];
        [apply elem_of_union in Hin as [Hin%elem_of_singleton|Hin%elem_of_singleton]|];
        subst key; congruence.
    + transitivity (@None string); [|symmetry].
      * apply not_elem_of_dom. by rewrite Hdom'.
      * apply not_elem_of_dom. by rewrite Hdom.
Qed.


End facade.

(** The scenario's request: the logs are fetched, the expert is consulted,
    and the two text parts of the final event make up the response. *)
Lemma analyze_incident_response_witness :
  exists w',
    api_server.analyze_incident (H := scenario.healthy)
      (sentinel_agent.create_sentinel rca_brain.init) scenario.request scenario.world0
    = (Ok (success_dict scenario.request "Recommended action: restart_service"), w')
    /\ exists events,
        turn (H := scenario.healthy) (sentinel_agent.create_sentinel rca_brain.init)
          scenario.request (session_step scenario.request scenario.world0).2
        = (Ok events, w')
        /\ dom (success_dict scenario.request "Recommended action: restart_service")
           = ({["status"; "session_id"; "response"]} : gset string)
        /\ success_dict scenario.request "Recommended action: restart_service" !! "status"
           = Some "success"
        /\ success_dict scenario.request "Recommended action: restart_service"
             !! "session_id" = Some "incident_123"
        /\ success_dict scenario.request "Recommended action: restart_service"
             !! "response" = Some (String.concat "" (text_fragments events)).
Proof.
  eexists. split; [vm_compute; reflexivity|].
  apply (analyze_incident_response (H := scenario.healthy)).
  vm_compute; reflexivity.
Defined.


(** ** Failure of the model call *)

Section policy_failure.
Context `{Externals}.
Import rca_brain sentinel_agent api_server.

Lemma run_plan_expert_raise a key c l k w e :
  lm (lm_calls w) (demos (brain a)) c l = Raise e ->
  exists w', run_plan a key (CallExpert c l k) w = (Raise e, w')
    /\ lm_calls w' = S (lm_calls w).
Proof.
  intros Hlm. simpl. unfold yield at 1.
  erewrite bind_ok by reflexivity.
  erewrite bind_raise; [eexists; split; [reflexivity|]|].
  2:{ erewrite bind_raise; [reflexivity|].
      apply consult_sre_expert_raise. exact Hlm. }
  reflexivity.
Qed.

(** C7: when the call to the underlying model fails, nothing between the
    Decision Policy and the facade recovers: [forward] and the expert tool
    raise the model's error after that single request (no retry, no
    Decision in its place), the orchestration loop is left at the failing
    tool call whatever the plan had in store, and the facade turns the
    error of the turn into its generic failure, status 500 with the error's
    message. *)
Theorem policy_call_failure_is_not_recovered brain_instance c l w e :
  lm (lm_calls w) (demos brain_instance) c l = Raise e ->
  forward brain_instance c l w = (Raise e, set_lm_calls (S (lm_calls w)) w)
  /\ (exists w', consult_sre_expert brain_instance c l w = (Raise e, w')
        /\ lm_calls w' = S (lm_calls w))
  /\ (forall key k,
        exists w', run_plan (create_sentinel brain_instance) key (CallExpert c l k) w
                   = (Raise e, w')
          /\ lm_calls w' = S (lm_calls w))
  /\ (forall agent_instance request w0 w1,
        turn agent_instance request (session_step request w0).2 = (Raise e, w1) ->
        analyze_incident agent_instance request w0
        = (Raise (Exn (HTTPException 500) (str e)), w1)).
Proof.
  intros Hlm. split; [|split; [|split]].
  - rewrite forward_run. by rewrite Hlm.
  - rewrite (consult_sre_expert_raise _ _ _ _ _ Hlm). by eexists.
  - intros key k. by apply run_plan_expert_raise.
  - intros agent_instance request w0 w1 Hturn.
    by rewrite analyze_incident_unfold, Hturn.
Qed.

End policy_failure.

(** The model fails on its first request and would answer the second: the
    request is not repeated, and the caller gets status 500. *)
Lemma policy_call_failure_is_not_recovered_witness :
  lm (Externals := scenario.flaky) 0 [] "chaos-monkey" "Logs are empty."
    = Raise scenario.overloaded
  /\ lm (Externals := scenario.flaky) 1 [] "chaos-monkey" "Logs are empty."
    = Ok scenario.oom_prediction
  /\ exists w',
      api_server.analyze_incident (H := scenario.flaky)
        (sentinel_agent.create_sentinel rca_brain.init) scenario.request scenario.world0
      = (Raise (Exn (HTTPException 500) "503 The model is overloaded."), w')
      /\ lm_calls w' = 1.
Proof.
  split; [reflexivity|]. split; [reflexivity|].
  destruct (policy_call_failure_is_not_recovered (H := scenario.flaky) rca_brain.init
              "chaos-monkey" "Logs are empty." scenario.world0 scenario.overloaded eq_refl)
    as (_ & _ & _ & Hfacade).
  eexists. split.
  - apply Hfacade. vm_compute; reflexivity.
  - reflexivity.
Defined.

(** * Further properties of the code *)

(** ** The Gateway's answers *)

Lemma truthy_append (prefix rest : string) :
  truthy prefix = true -> truthy (prefix +:+ rest) = true.
Proof. by destruct prefix. Qed.

Lemma truthy_or_else (a b : string) : truthy b = true -> truthy (or_else a b) = true.
Proof. unfold or_else. by destruct (truthy a) eqn:Ha. Qed.

Lemma report_from (containers : list Container) : forall report,
  fold_left (fun report c => report +:+ ops_server.describe c) containers report
  = report +:+ String.concat "" (map ops_server.describe containers).
Proof.
  induction containers as [|c containers IH]; intros report; cbn [fold_left map].
  - by rewrite append_empty_r.
  - rewrite IH, concat_cons. by rewrite append_assoc.
Qed.

Section gateway_answers.
Context `{Externals}.
Import ops_server.

(** The report lists the running containers one per line, in the order in
    which the daemon lists them, under a header line; when none is running
    the answer is a fixed sentence instead of a header without lines. *)
Theorem list_active_containers_report c containers w :
  client = Some c ->
  containers_list c (docker_calls w) = Ok containers ->
  (list_active_containers w).1
  = Ok (match containers with
        | [] => "No active containers found."
        | _ :: _ => containers_report containers
        end).
Proof.
  intros Hclient Hlist. unfold list_active_containers. rewrite Hclient.
  py_unfold. simpl. rewrite Hlist. destruct containers as [|c0 containers]; [reflexivity|].
  cbn [fst]. f_equal. rewrite report_from. unfold containers_report.
  by rewrite append_assoc.
Qed.

(** No Gateway operation ever answers with the empty string: empty logs
    are answered with a sentence of their own. *)
Theorem gateway_answers_are_not_empty container_name tail w :
  (exists s, (list_active_containers w).1 = Ok s /\ truthy s = true)
  /\ (exists s, (get_container_logs container_name tail w).1 = Ok s /\ truthy s = true)
  /\ (exists s, (restart_service container_name w).1 = Ok s /\ truthy s = true)
  /\ (forall c container raw,
        client = Some c ->
        containers_get c (docker_calls w) container_name = Ok container ->
        container_logs c (S (docker_calls w)) container tail = Ok raw ->
        decode_utf8 raw = Ok "" ->
        (get_container_logs container_name tail w).1 = Ok "Logs are empty.").
Proof.
  unfold list_active_containers, get_container_logs, restart_service.
  repeat split.
  - destruct client as [c|]; [|by eexists]. py_unfold. simpl.
    destruct (containers_list c (docker_calls w)) as [[|c0 containers]|e];
      simpl; eexists; (split; [reflexivity|]); try reflexivity.
    rewrite report_from. reflexivity.
  - destruct client as [c|]; [|by eexists]. py_unfold. simpl.
    py_cases; eexists; (split; [reflexivity|]); try reflexivity.
    by apply truthy_or_else.
  - destruct client as [c|]; [|by eexists]. py_unfold. simpl.
    py_cases; eexists; (split; [reflexivity|]); reflexivity.
  - intros c container raw -> Hget Hlogs Hdecode. py_unfold. simpl.
    rewrite Hget. simpl. rewrite Hlogs. simpl. by rewrite Hdecode.
Qed.

Lemma failure_text_is_no_success (x y : string) :
  "Restart Failed: " +:+ x <> "✅ Service '" +:+ y.
Proof. intros Heq. vm_compute in Heq. discriminate. Qed.

(** [restart_service] reports success exactly when the container was found
    and the daemon carried out the restart: a failed restart is never
    reported as done. *)
Theorem restart_service_success_iff c container_name w :
  client = Some c ->
  (restart_service container_name w).1
    = Ok ("✅ Service '" +:+ container_name +:+ "' restarted successfully.")
  <-> exists container,
        containers_get c (docker_calls w) container_name = Ok container
        /\ container_restart c (S (docker_calls w)) container = Ok tt.
Proof.
  intros Hclient. unfold restart_service. rewrite Hclient. py_unfold. simpl.
  destruct (containers_get c (docker_calls w) container_name) as [container|e] eqn:Hget;
    simpl.
  - destruct (container_restart c (S (docker_calls w)) container) as [[]|e] eqn:Hrestart;
      simpl.
    + split; [intros _; by exists container|reflexivity].
    + split.
      * intros Heq.
        pose proof (failure_text_is_no_success (str e)
                      (container_name +:+ "' restarted successfully.")).
        congruence.
      * intros (container' & [= <-] & Hok). congruence.
  - split.
    + intros Heq.
      pose proof (failure_text_is_no_success (str e)
                    (container_name +:+ "' restarted successfully.")).
      congruence.
    + intros (container & Hok & _). discriminate.
Qed.

(** The operations change nothing of the world but the count of calls
    made to the docker client: one call to list, at most two to fetch logs
    or to restart, and none at all without a client. *)
Theorem gateway_request_budget container_name tail w :
  let after_list := (list_active_containers w).2 in
  let after_logs := (get_container_logs container_name tail w).2 in
  let after_restart := (restart_service container_name w).2 in
  (after_list = set_docker_calls (docker_calls after_list) w
   /\ docker_calls w <= docker_calls after_list <= docker_calls w + 1)
  /\ (after_logs = set_docker_calls (docker_calls after_logs) w
      /\ docker_calls w <= docker_calls after_logs <= docker_calls w + 2)
  /\ (after_restart = set_docker_calls (docker_calls after_restart) w
      /\ docker_calls w <= docker_calls after_restart <= docker_calls w + 2)
  /\ (client = None -> after_list = w /\ after_logs = w /\ after_restart = w).
Proof.
  unfold list_active_containers, get_container_logs, restart_service.
  destruct w as [n_lm n_docker fs ss out]. simpl.
  destruct client as [c|]; simpl.
  - py_unfold. unfold set_docker_calls. simpl.
    repeat split; py_cases; simpl; try reflexivity; try lia; try discriminate.
  - repeat split; simpl; try reflexivity; lia.
Qed.

End gateway_answers.

Lemma list_active_containers_report_witness :
  containers_list scenario.docker 0 = Ok [scenario.chaos_monkey]
  /\ (ops_server.list_active_containers (H := scenario.healthy) scenario.world0).1
     = Ok (containers_report [scenario.chaos_monkey]).
Proof.
  split; [reflexivity|].
  exact (list_active_containers_report (H := scenario.healthy) scenario.docker
           [scenario.chaos_monkey] scenario.world0 eq_refl eq_refl).
Defined.

Lemma restart_service_success_iff_witness :
  (ops_server.restart_service (H := scenario.healthy) "chaos-monkey" scenario.world0).1
    = Ok "✅ Service 'chaos-monkey' restarted successfully."
  /\ (ops_server.restart_service (H := scenario.healthy) "ghost" scenario.world0).1
     <> Ok "✅ Service 'ghost' restarted successfully.".
Proof.
  split.
  - apply (restart_service_success_iff (H := scenario.healthy) scenario.docker
             "chaos-monkey" scenario.world0 eq_refl).
    exists scenario.chaos_monkey. split; reflexivity.
  - intros Hdone.
    apply (restart_service_success_iff (H := scenario.healthy) scenario.docker
             "ghost" scenario.world0 eq_refl) in Hdone as (container & Hget & _).
    discriminate.
Defined.

(** ** Calibration, from training to the production brain *)

Section calibration_runs.
Context `{Externals}.
Import rca_brain train_brain sentinel_agent.

(** The world after [compile] has saved the retained demonstrations. *)
Lemma compile_unfold w :
  compile w
  = match bootstrap (mkBootstrapFewShot validate_answer 2) init [] trainset
            (set_stdout (stdout w ++ ["🧠 Training SRE Brain..."]) w) with
    | (Ok kept, w1) =>
        (Ok tt,
         set_stdout (stdout w1 ++ ["✅ Brain compiled and saved to " +:+ save_path])
           (set_files (<[save_path := Compiled kept]> (files w1)) w1))
    | (Raise e, w1) => (Raise e, w1)
    end.
Proof.
  unfold compile. erewrite bind_ok by reflexivity. cbv zeta.
  unfold teleprompter_compile.
  destruct (bootstrap _ init [] trainset _) as [[kept|e] w1] eqn:Hboot.
  - erewrite bind_ok; [|erewrite bind_ok by exact Hboot; reflexivity].
    erewrite bind_ok by reflexivity. reflexivity.
  - erewrite bind_raise; [reflexivity|]. by erewrite bind_raise by exact Hboot.
Qed.

(** An existing file decides the outcome of loading.  A saved program
    state replaces the demonstrations the brain held, and the brain then
    sends the loaded ones along with every request; a file that cannot be
    loaded makes [load_production_weights] raise the loader's error, with
    no fallback to zero-shot mode and nothing printed. *)
Theorem load_production_weights_present self filepath w document :
  files w !! filepath = Some document ->
  match document with
  | Compiled saved =>
      load_production_weights self filepath w
      = (Ok (mkSREBrain saved),
         set_stdout (stdout w ++ ["✅ Loaded optimized brain from " +:+ filepath]) w)
      /\ (forall c l w', (forward (mkSREBrain saved) c l w').1 = lm (lm_calls w') saved c l)
  | Unreadable _ =>
      exists e, load_production_weights self filepath w = (Raise e, w)
  end.
Proof.
  intros Hfile. unfold load_production_weights.
  erewrite bind_ok; [|unfold path_exists; rewrite Hfile; reflexivity].
  rewrite bool_decide_eq_true_2 by by eexists.
  destruct document as [saved|raw].
  - erewrite bind_ok; [|unfold load; rewrite Hfile; reflexivity].
    erewrite bind_ok by reflexivity. split; [reflexivity|].
    intros c l w'. by rewrite forward_run.
  - eexists. erewrite bind_raise; [reflexivity|]. unfold load. by rewrite Hfile.
Qed.

(** What calibration saves is what production loads: [compile] writes to
    the very path from which the agent's brain instance is loaded at
    import, so after a successful calibration the brain instance carries
    exactly the persisted demonstrations. *)
Theorem calibrated_brain_is_loaded w w1 :
  compile w = (Ok tt, w1) ->
  exists kept w2,
    files w1 !! save_path = Some (Compiled kept)
    /\ make_brain_instance w1 = (Ok (mkSREBrain kept), w2)
    /\ files w2 = files w1.
Proof.
  rewrite compile_unfold.
  destruct (bootstrap _ init [] trainset _) as [[kept|e] w0] eqn:Hboot; [|discriminate].
  intros [= <-].
  assert (Hfile : files (set_stdout
                           (stdout w0 ++ ["✅ Brain compiled and saved to " +:+ save_path])
                           (set_files (<[save_path := Compiled kept]> (files w0)) w0))
                  !! "modules/brain_compiled.json" = Some (Compiled kept))
    by (simpl; unfold save_path; by simplify_map_eq).
  eexists kept, _. split; [exact Hfile|].
  unfold make_brain_instance, load_production_weights.
  erewrite bind_ok; [|unfold path_exists; rewrite Hfile; reflexivity].
  rewrite bool_decide_eq_true_2 by by eexists.
  erewrite bind_ok; [|unfold load; rewrite Hfile; reflexivity].
  erewrite bind_ok by reflexivity. split; reflexivity.
Qed.

End calibration_runs.

Lemma load_production_weights_present_witness :
  files (set_files {["modules/brain_compiled.json" := Compiled train_brain.trainset]}
           scenario.world0) !! "modules/brain_compiled.json"
    = Some (Compiled train_brain.trainset)
  /\ (rca_brain.load_production_weights rca_brain.init "modules/brain_compiled.json"
        (set_files {["modules/brain_compiled.json" := Compiled train_brain.trainset]}
           scenario.world0)).1
     = Ok (rca_brain.mkSREBrain train_brain.trainset).
Proof.
  assert (Hfile :
    files (set_files {["modules/brain_compiled.json" := Compiled train_brain.trainset]}
             scenario.world0) !! "modules/brain_compiled.json"
    = Some (Compiled train_brain.trainset)) by (vm_compute; reflexivity).
  split; [exact Hfile|].
  destruct (load_production_weights_present (H := scenario.healthy) rca_brain.init
              "modules/brain_compiled.json" _ _ Hfile) as [Hrun _].
  by rewrite Hrun.
Defined.

Lemma calibrated_brain_is_loaded_witness :
  exists w1,
    train_brain.compile (H := scenario.healthy) scenario.world0 = (Ok tt, w1)
    /\ exists kept w2,
        files w1 !! train_brain.save_path = Some (Compiled kept)
        /\ sentinel_agent.make_brain_instance w1 = (Ok (rca_brain.mkSREBrain kept), w2)
        /\ files w2 = files w1.
Proof.
  eexists. split; [vm_compute; reflexivity|].
  apply (calibrated_brain_is_loaded (H := scenario.healthy) scenario.world0).
  vm_compute; reflexivity.
Defined.

(** ** The response text *)

Section response_text.
Import api_server.

(** The response of a turn is put together piecewise: the text of a
    sequence of events is the text of its first part followed by the text
    of the rest, and events without text fragments add nothing. *)
Theorem accumulate_app events1 events2 :
  accumulate (events1 ++ events2) = accumulate events1 +:+ accumulate events2
  /\ (text_fragments events1 = [] -> accumulate (events1 ++ events2) = accumulate events2).
Proof.
  rewrite !accumulate_concat. unfold text_fragments.
  rewrite flat_map_app, concat_app. split; [reflexivity|].
  unfold text_fragments. by intros ->.
Qed.

End response_text.

(** ** The interactive loop *)

Section interactive.
Context `{Externals}.
Import rca_brain sentinel_agent api_server entry_points.

(** One iteration that handles a line always comes back: an exception of
    the turn is printed, not raised. *)
Lemma respond_guarded runner session_id user_id user_input w :
  exists w',
    try_except (respond runner session_id user_id user_input)
      (fun e => print ("❌ Error: " +:+ str e)) w = (Ok tt, w').
Proof.
  unfold try_except.
  destruct (respond runner session_id user_id user_input w) as [[[]|e] w1];
    by eexists.
Qed.

Lemma repl_run runner session_id user_id inputs :
  forall w, exists st w',
    repl runner session_id user_id inputs w = (Ok st, w')
    /\ (st = Exited <-> Exists leaves_loop inputs).
Proof.
  induction inputs as [|[user_input|] rest IH]; intros w; simpl.
  - erewrite bind_ok by reflexivity. eexists _, _. split; [reflexivity|].
    split; [discriminate|]. by intros ?%Exists_nil.
  - erewrite bind_ok by reflexivity. case_bool_decide as Hexit.
    + eexists _, _. split; [reflexivity|]. split; [|done].
      intros _. by apply Exists_cons_hd.
    + destruct (respond_guarded runner session_id user_id user_input
                  (set_stdout (stdout w ++ [input_prompt]) w)) as [w1 Hstep].
      erewrite bind_ok by exact Hstep.
      destruct (IH w1) as (st & w' & Hrun & Hst).
      exists st, w'. split; [exact Hrun|]. rewrite Hst, Exists_cons.
      simpl. unfold exit_command. tauto.
  - erewrite bind_ok by reflexivity. eexists _, _. split; [reflexivity|].
    split; [|done]. intros _. by apply Exists_cons_hd.
Qed.

Lemma repl_after_exit runner session_id user_id cmd post :
  exit_command cmd ->
  forall pre w,
    repl runner session_id user_id (pre ++ Line cmd :: post) w
    = repl runner session_id user_id (pre ++ [Line cmd]) w.
Proof.
  intros Hexit. induction pre as [|[user_input|] pre IH]; intros w; simpl.
  - unfold mbind, M_bind. simpl. by rewrite !bool_decide_eq_true_2.
  - unfold mbind, M_bind. simpl. case_bool_decide; [reflexivity|].
    destruct (try_except _ _ _) as [[[]|e] w1]; [apply IH|reflexivity].
  - reflexivity.
Qed.

Lemma main_unfold brain_instance inputs w :
  main brain_instance inputs w
  = repl (mkRunner (create_sentinel brain_instance) "Sentinel_App")
      "live-session-01" "admin_user" inputs
      (set_stdout
         (stdout w ++ ["⏳ Initializing Sentinel..."]
                   ++ ["✅ Sentinel is Online. (Type 'exit' to quit)"])
         (set_sessions {[("Sentinel_App", "admin_user", "live-session-01") := []]} w)).
Proof.
  unfold main. erewrite bind_ok by reflexivity. cbv zeta.
  erewrite bind_ok by reflexivity.
  erewrite bind_ok by reflexivity.
  erewrite bind_ok by reflexivity.
  f_equal. unfold set_stdout, set_sessions. simpl. by rewrite <- app_assoc.
Qed.


(** Once an exit command is read, nothing typed after it has any effect:
    the run ends as if the later lines had never been entered. *)
Theorem main_stops_at_exit_command brain_instance pre cmd post w :
  exit_command cmd ->
  main brain_instance (pre ++ Line cmd :: post) w
  = main brain_instance (pre ++ [Line cmd]) w
  /\ exists w', main brain_instance (pre ++ [Line cmd]) w = (Ok Exited, w').
Proof.
  intros Hexit. rewrite !main_unfold. split; [by apply repl_after_exit|].
  destruct (repl_run (mkRunner (create_sentinel brain_instance) "Sentinel_App")
              "live-session-01" "admin_user" (pre ++ [Line cmd])
              (set_stdout
                 (stdout w ++ ["⏳ Initializing Sentinel..."]
                           ++ ["✅ Sentinel is Online. (Type 'exit' to quit)"])
                 (set_sessions
                    {[("Sentinel_App", "admin_user", "live-session-01") := []]} w)))
    as (st & w' & Hrun & Hst).
  exists w'. rewrite Hrun. do 2 f_equal. apply Hst.
  apply Exists_app. right. by apply Exists_cons_hd.
Qed.

End interactive.

Lemma exit_in_capitals : exit_command "EXIT" /\ exit_command "Quit".
Proof.
  unfold exit_command. simpl. split.
  - apply list_elem_of_here.
  - apply list_elem_of_further, list_elem_of_here.
Qed.

Lemma main_stops_at_exit_command_witness :
  exit_command "EXIT"
  /\ entry_points.main (H := scenario.healthy) rca_brain.init
       [entry_points.Line "Check chaos-monkey."; entry_points.Line "EXIT";
        entry_points.Line "Restart everything."] scenario.world0
     = entry_points.main (H := scenario.healthy) rca_brain.init
         [entry_points.Line "Check chaos-monkey."; entry_points.Line "EXIT"]
         scenario.world0
  /\ exists w',
      entry_points.main (H := scenario.healthy) rca_brain.init
        [entry_points.Line "Check chaos-monkey."; entry_points.Line "EXIT"]
        scenario.world0
      = (Ok entry_points.Exited, w').
Proof.
  split; [exact (proj1 exit_in_capitals)|].
  exact (main_stops_at_exit_command (H := scenario.healthy) rca_brain.init
           [entry_points.Line "Check chaos-monkey."] "EXIT"
           [entry_points.Line "Restart everything."] scenario.world0
           (proj1 exit_in_capitals)).
Defined.

(** The first turn fails with the model, the second one is answered, the
    line typed after "Quit" is not read; a line with surrounding blanks is
    no exit command. *)
Example main_runs :
  stdout (entry_points.main (H := scenario.flaky) rca_brain.init
            [entry_points.Line "first"; entry_points.Line "second";
             entry_points.Line "Quit"; entry_points.Line "third"] scenario.world0).2
  = [ "⏳ Initializing Sentinel...";
      "✅ Sentinel is Online. (Type 'exit' to quit)";
      entry_points.input_prompt;
      nl +:+ "🧠 [Brain] Analyzing logs for chaos-monkey...";
      "❌ Error: 503 The model is overloaded.";
      entry_points.input_prompt;
      nl +:+ "🧠 [Brain] Analyzing logs for chaos-monkey...";
      "Sentinel: Recommended action: restart_service";
      entry_points.input_prompt ]
  /\ ~ exit_command " exit".
Proof.
  split; [vm_compute; reflexivity|].
  unfold exit_command. simpl. rewrite !not_elem_of_cons.
  repeat split; try discriminate. apply not_elem_of_nil.
Qed.

(** The interrupt ends a run in which no exit command was typed; lines
    alone that are no exit command leave [main] waiting. *)
Example main_interrupted :
  (entry_points.main (H := scenario.healthy) rca_brain.init
     [entry_points.Line "first"; entry_points.KeyboardInterrupt;
      entry_points.Line "second"] scenario.world0).1 = Ok entry_points.Exited
  /\ (entry_points.main (H := scenario.healthy) rca_brain.init
        [entry_points.Line "first"; entry_points.Line "second"] scenario.world0).1
     = Ok entry_points.AwaitingInput
  /\ lm_calls (entry_points.main (H := scenario.healthy) rca_brain.init
                 [entry_points.Line "first"; entry_points.KeyboardInterrupt;
                  entry_points.Line "second"] scenario.world0).2 = 1.
Proof. repeat split; vm_compute; reflexivity. Qed.
